(** * shogun/mathematics/linalg/internal/modules/Core.h

    A shallow embedding of the dispatch layer of Shogun's linalg [Core]
    module: the eight function templates of [Core.h], the preprocessor
    gate [HAVE_LINALG_LIB] around seven of them, their default template
    and function arguments, and the forwarding of every call to
    [implementation::<op><backend, Matrix>::compute].

    The headers included by [Core.h] (Add.h, Scale.h, MatrixProduct.h,
    ElementwiseProduct.h, ElementwiseSquare.h, Convolve.h) hold the
    kernels; where a result depends on what a kernel computes, the kernel
    is a definition marked "Modelled from the spec". *)

From Stdlib Require Import ZArith Lia.
From stdpp Require Import base decidable option list strings.

Local Open Scope Z_scope.
Local Open Scope string_scope.

(** ** Scalars: [typename Matrix::Scalar]

    [Core.h] uses three things of the scalar type of a container: the
    conversion of a numeric literal ([1.0], [-1]) to it, its product (in
    [-1*beta]) and, through the kernels, its sum.  The one law is the one
    the literal [-1] obeys in every arithmetic type of C++: multiplying by
    it negates. *)
Class Scalar (T : Type) : Type := {
  s_lit : Z -> T;
  s_add : T -> T -> T;
  s_mul : T -> T -> T;
  s_neg : T -> T;
  s_neg1_mul : forall x : T, s_mul (s_lit (-1)) x = s_neg x
}.

Definition s_zero {T} {ST : Scalar T} : T := s_lit 0.

(** Unbounded integers: the scalars of a container whose arithmetic
    never overflows.  Fixed-width scalars wrap around, as [int32] below
    does.  The law holds by cases on the sign. *)
Definition Z_mul_neg1 (x : Z) : -1 * x = - x :=
  match x with
  | Z0 => eq_refl
  | Zpos _ => eq_refl
  | Zneg _ => eq_refl
  end.

#[export] Instance Scalar_Z : Scalar Z := {|
  s_lit := fun z => z;
  s_add := Z.add;
  s_mul := Z.mul;
  s_neg := Z.opp;
  s_neg1_mul := Z_mul_neg1
|}.

(** [int32_t], two's complement: a [Z] kept in [-2^31, 2^31) by [wrap32]. *)
Definition wrap32 (z : Z) : Z := (z + 2 ^ 31) mod 2 ^ 32 - 2 ^ 31.

Record int32 : Type := mk_int32 { i32_val : Z }.

Definition i32 (z : Z) : int32 := mk_int32 (wrap32 z).

Definition i32_add (a b : int32) : int32 := i32 (i32_val a + i32_val b).
Definition i32_mul (a b : int32) : int32 := i32 (i32_val a * i32_val b).
Definition i32_neg (a : int32) : int32 := i32 (- i32_val a).

Definition i32_mul_neg1 (x : int32) : i32_mul (i32 (-1)) x = i32_neg x :=
  f_equal i32 (Z_mul_neg1 (i32_val x)).

#[export] Instance Scalar_int32 : Scalar int32 := {|
  s_lit := i32;
  s_add := i32_add;
  s_mul := i32_mul;
  s_neg := i32_neg;
  s_neg1_mul := i32_mul_neg1
|}.

(** ** Backends

    Modelled from the spec: the enumeration [Backend] is declared in a
    header that is not part of this module; the spec names its three
    compute engines. *)
Inductive Backend : Type := reference | vectorized_cpu | accelerator.

#[export] Instance Backend_eq_dec : EqDecision Backend.
Proof. solve_decision. Defined.

(** The class templates of namespace [implementation] that [Core.h]
    names. *)
Inductive Impl : Type :=
  | impl_add
  | impl_matrix_product
  | impl_scale
  | impl_elementwise_product
  | impl_elementwise_square
  | impl_convolve.

#[export] Instance Impl_eq_dec : EqDecision Impl.
Proof. solve_decision. Defined.

(** The function templates [Core.h] declares, in the order of the file.
    The two overloads of [elementwise_square] are told apart by name. *)
Inductive Function : Type :=
  | fn_add
  | fn_matrix_product
  | fn_subtract
  | fn_scale
  | fn_elementwise_product
  | fn_elementwise_square
  | fn_elementwise_square_into
  | fn_convolve.

#[export] Instance Function_eq_dec : EqDecision Function.
Proof. solve_decision. Defined.

(** ** The preprocessor

    [Core.h] is one list of function templates with a single
    [#ifdef HAVE_LINALG_LIB] ... [#endif] block (lines 64 to 153). *)
Inductive Line : Type :=
  | ifdef (macro : string)
  | endif
  | decl (f : Function).

Definition Core_h : list Line :=
  [ decl fn_add;
    ifdef "HAVE_LINALG_LIB";
    decl fn_matrix_product;
    decl fn_subtract;
    decl fn_scale;
    decl fn_elementwise_product;
    decl fn_elementwise_square;
    decl fn_elementwise_square_into;
    decl fn_convolve;
    endif ].

(** [skipped] counts the enclosing conditionals that are switched off. *)
Fixpoint preprocess (defined : list string) (skipped : nat) (ls : list Line)
  : list Function :=
  match ls with
  | [] => []
  | ifdef m :: rest =>
      match skipped with
      | O => if bool_decide (m ∈ defined) then preprocess defined 0 rest
             else preprocess defined 1 rest
      | S _ => preprocess defined (S skipped) rest
      end
  | endif :: rest => preprocess defined (pred skipped) rest
  | decl f :: rest =>
      match skipped with
      | O => f :: preprocess defined 0 rest
      | S _ => preprocess defined skipped rest
      end
  end.

Definition declared (defined : list string) : list Function :=
  preprocess defined 0 Core_h.

(** ** The dispatch layer

    Generic, as the templates are, in the scalar type [T], in the names
    [CType] of the container types a template can be instantiated at
    ([class Matrix], [class ResultMatrix]) and in the values [Container]
    those types hold.  Containers are handles on shared storage: a
    kernel writes its result through the output argument, so a run
    yields the new contents of the output container (or the returned
    container, for the allocating [elementwise_square]). *)
Section Dispatch.
Context {T : Type} {ST : Scalar T}.
Context {CType : Type} `{EqDecision CType}.
Context {Container : Type}.

(** An actual argument: a container together with its static type, a
    scalar, a [bool] or an [int32_t]. *)
Inductive Arg : Type :=
  | Mat (ty : CType) (m : Container)
  | Sc (x : T)
  | Flag (b : bool)
  | I32 (n : Z).

(** [implementation::<impl><backend, type>::compute(args)]: the one
    statement in the body of every function of [Core.h]. *)
Record ComputeCall : Type := implementation_compute {
  cc_impl : Impl;
  cc_backend : Backend;
  cc_type : CType;
  cc_args : list Arg
}.

(** Core.h, lines 57-62. *)
Definition add (backend : Backend) (Matrix : CType) (A B C : Container)
  (alpha beta : T) : ComputeCall :=
  implementation_compute impl_add backend Matrix
    [Mat Matrix A; Mat Matrix B; Mat Matrix C; Sc alpha; Sc beta].

(** Core.h, lines 75-80. *)
Definition matrix_product (backend : Backend) (Matrix : CType)
  (A B C : Container) (transpose_A transpose_B overwrite : bool) : ComputeCall :=
  implementation_compute impl_matrix_product backend Matrix
    [Mat Matrix A; Mat Matrix B; Mat Matrix C;
     Flag transpose_A; Flag transpose_B; Flag overwrite].

(** Core.h, lines 83-88: the callee is [implementation::add], the last
    argument is [-1*beta]. *)
Definition subtract (backend : Backend) (Matrix : CType) (A B C : Container)
  (alpha beta : T) : ComputeCall :=
  implementation_compute impl_add backend Matrix
    [Mat Matrix A; Mat Matrix B; Mat Matrix C; Sc alpha;
     Sc (s_mul (s_lit (-1)) beta)].

(** Core.h, lines 91-95. *)
Definition scale (backend : Backend) (Matrix : CType) (A B : Container)
  (alpha : T) : ComputeCall :=
  implementation_compute impl_scale backend Matrix
    [Mat Matrix A; Mat Matrix B; Sc alpha].

(** Core.h, lines 98-102. *)
Definition elementwise_product (backend : Backend) (Matrix : CType)
  (A B C : Container) : ComputeCall :=
  implementation_compute impl_elementwise_product backend Matrix
    [Mat Matrix A; Mat Matrix B; Mat Matrix C].

(** Core.h, lines 112-116: the allocating overload. *)
Definition elementwise_square (backend : Backend) (Matrix : CType)
  (m : Container) : ComputeCall :=
  implementation_compute impl_elementwise_square backend Matrix [Mat Matrix m].

(** Core.h, lines 125-129: the overload with a caller-supplied result;
    [ResultMatrix] is a template parameter of the function but not of the
    class it calls. *)
Definition elementwise_square_into (backend : Backend)
  (Matrix ResultMatrix : CType) (m result : Container) : ComputeCall :=
  implementation_compute impl_elementwise_square backend Matrix
    [Mat Matrix m; Mat ResultMatrix result].

(** Core.h, lines 147-152. *)
Definition convolve (backend : Backend) (Matrix : CType) (X W Y : Container)
  (flip overwrite : bool) (stride_x stride_y : Z) : ComputeCall :=
  implementation_compute impl_convolve backend Matrix
    [Mat Matrix X; Mat Matrix W; Mat Matrix Y; Flag flip; Flag overwrite;
     I32 stride_x; I32 stride_y].

(** *** Function parameters and their default arguments *)
Record Param : Type := param {
  p_name : string;
  p_default : option Arg
}.

Definition required (name : string) : Param := param name None.
Definition defaulted (name : string) (a : Arg) : Param := param name (Some a).

Definition parameters (f : Function) : list Param :=
  match f with
  | fn_add =>
      [required "A"; required "B"; required "C";
       defaulted "alpha" (Sc (s_lit 1)); defaulted "beta" (Sc (s_lit 1))]
  | fn_matrix_product =>
      [required "A"; required "B"; required "C";
       defaulted "transpose_A" (Flag false); defaulted "transpose_B" (Flag false);
       defaulted "overwrite" (Flag true)]
  | fn_subtract =>
      [required "A"; required "B"; required "C";
       defaulted "alpha" (Sc (s_lit 1)); defaulted "beta" (Sc (s_lit 1))]
  | fn_scale => [required "A"; required "B"; required "alpha"]
  | fn_elementwise_product => [required "A"; required "B"; required "C"]
  | fn_elementwise_square => [required "m"]
  | fn_elementwise_square_into => [required "m"; required "result"]
  | fn_convolve =>
      [required "X"; required "W"; required "Y";
       defaulted "flip" (Flag false); defaulted "overwrite" (Flag true);
       defaulted "stride_x" (I32 1); defaulted "stride_y" (I32 1)]
  end.

(** Binding of the actual arguments of a call, left to right; a
    parameter without an actual takes its default argument, and the call
    is ill-formed when it has none. *)
Fixpoint complete (ps : list Param) (args : list Arg) : option (list Arg) :=
  match ps, args with
  | [], [] => Some []
  | [], _ :: _ => None
  | p :: ps', a :: args' => cons a <$> complete ps' args'
  | p :: ps', [] =>
      match p_default p with
      | Some d => cons d <$> complete ps' []
      | None => None
      end
  end.

Definition bind_arguments (f : Function) (args : list Arg) : option (list Arg) :=
  complete (parameters f) args.

(** *** Build-time outcomes *)
Inductive BuildError : Type :=
  | undeclared (f : Function)
  | no_matching_function (f : Function)
  | conflicting_types (f : Function)
  | no_specialization (i : Impl) (b : Backend) (ty : CType).

Inductive Build (A : Type) : Type :=
  | built (a : A)
  | rejected (e : BuildError).
Arguments built {A} a.
Arguments rejected {A} e.

(** Deduction of [class Matrix] from the three container arguments of a
    function whose parameters all have type [Matrix]. *)
Definition deduce3 (f : Function) (tA tB tC : CType) (k : CType -> ComputeCall)
  : Build ComputeCall :=
  if decide (tA = tB ∧ tB = tC) then built (k tA) else rejected (conflicting_types f).

Definition deduce2 (f : Function) (tA tB : CType) (k : CType -> ComputeCall)
  : Build ComputeCall :=
  if decide (tA = tB) then built (k tA) else rejected (conflicting_types f).

(** The body of [f] at a complete argument list.  The list holds the
    values of the parameters, that is the arguments of the call after
    the implicit conversions that initialise a parameter from an
    argument of another arithmetic type; a list that is not made of one
    value of each parameter's kind is outside this model and is
    rejected. *)
Definition forward (f : Function) (backend : Backend) (full : list Arg)
  : Build ComputeCall :=
  match f, full with
  | fn_add, [Mat tA A; Mat tB B; Mat tC C; Sc alpha; Sc beta] =>
      deduce3 f tA tB tC (fun Matrix => add backend Matrix A B C alpha beta)
  | fn_matrix_product,
    [Mat tA A; Mat tB B; Mat tC C; Flag transpose_A; Flag transpose_B; Flag overwrite] =>
      deduce3 f tA tB tC (fun Matrix =>
        matrix_product backend Matrix A B C transpose_A transpose_B overwrite)
  | fn_subtract, [Mat tA A; Mat tB B; Mat tC C; Sc alpha; Sc beta] =>
      deduce3 f tA tB tC (fun Matrix => subtract backend Matrix A B C alpha beta)
  | fn_scale, [Mat tA A; Mat tB B; Sc alpha] =>
      deduce2 f tA tB (fun Matrix => scale backend Matrix A B alpha)
  | fn_elementwise_product, [Mat tA A; Mat tB B; Mat tC C] =>
      deduce3 f tA tB tC (fun Matrix => elementwise_product backend Matrix A B C)
  | fn_elementwise_square, [Mat tm m] =>
      built (elementwise_square backend tm m)
  | fn_elementwise_square_into, [Mat tm m; Mat tr result] =>
      built (elementwise_square_into backend tm tr m result)
  | fn_convolve,
    [Mat tX X; Mat tW W; Mat tY Y; Flag flip; Flag overwrite; I32 stride_x; I32 stride_y] =>
      deduce3 f tX tW tY (fun Matrix =>
        convolve backend Matrix X W Y flip overwrite stride_x stride_y)
  | _, _ => rejected (no_matching_function f)
  end.

(** *** Specializations

    Modelled from the spec: the class templates [implementation::add],
    [implementation::scale], ... and their specializations live in the
    headers [Core.h] includes.  A registry says which (operation,
    backend, container type) triples have a specialization and what its
    [compute] does; instantiating a call at a triple without one fails
    the build. *)
Definition Kernel : Type := list Arg -> option Container.

Definition Registry : Type := Impl -> Backend -> CType -> option Kernel.

Definition instantiate (reg : Registry) (c : ComputeCall)
  : Build (option Container) :=
  match reg (cc_impl c) (cc_backend c) (cc_type c) with
  | Some k => built (k (cc_args c))
  | None => rejected (no_specialization (cc_impl c) (cc_backend c) (cc_type c))
  end.

(** *** A build and a call in it

    [linalg_traits_Core_backend] is [linalg_traits<Core>::backend], the
    default of the template parameter [backend] of all eight functions;
    it is set where the build is configured. *)
Record Config : Type := mk_config {
  macros : list string;
  linalg_traits_Core_backend : Backend;
  implementation : Registry
}.

(** The template argument [backend], given or defaulted. *)
Definition backend_of (cfg : Config) (explicit : option Backend) : Backend :=
  default (linalg_traits_Core_backend cfg) explicit.

(** A call [f<explicit>(args)] up to the statement it forwards to. *)
Definition resolve (cfg : Config) (f : Function) (explicit : option Backend)
  (args : list Arg) : Build ComputeCall :=
  if decide (f ∈ declared (macros cfg)) then
    match bind_arguments f args with
    | Some full => forward f (backend_of cfg explicit) full
    | None => rejected (no_matching_function f)
    end
  else rejected (undeclared f).

(** The whole call: the outer result is the build's, the inner one the
    kernel's at run time. *)
Definition call (cfg : Config) (f : Function) (explicit : option Backend)
  (args : list Arg) : Build (option Container) :=
  match resolve cfg f explicit args with
  | built c => instantiate (implementation cfg) c
  | rejected e => rejected e
  end.

End Dispatch.

Arguments Arg : clear implicits.
Arguments ComputeCall : clear implicits.
Arguments Param : clear implicits.
Arguments BuildError : clear implicits.
Arguments Build : clear implicits.
Arguments Kernel : clear implicits.
Arguments Registry : clear implicits.
Arguments Config : clear implicits.
Arguments built {CType A} a.
Arguments rejected {CType A} e.

(** ** Dense containers and the kernels

    A dense matrix is the list of its rows; a vector is a matrix of one
    row.  [shape] lists the row lengths, so two containers conform for a
    coefficient-wise operation exactly when their shapes are equal. *)
Section Kernels.
Context {T : Type} {ST : Scalar T}.
Context {CType : Type}.

Definition shape (m : list (list T)) : list nat := length <$> m.

Definition rows (m : list (list T)) : nat := length m.

Definition cols (m : list (list T)) : nat :=
  match m with
  | [] => 0%nat
  | r :: _ => length r
  end.

Definition rectangular (m : list (list T)) : Prop :=
  shape m = replicate (rows m) (cols m).

(** The coefficient at row [i], column [j]. *)
Definition coeff (m : list (list T)) (i j : nat) : option T :=
  m !! i ≫= fun r => r !! j.

Definition get (m : list (list T)) (i j : nat) : T :=
  default s_zero (coeff m i j).

Definition tabulate (r c : nat) (f : nat -> nat -> T) : list (list T) :=
  (fun i => f i <$> seq 0 c) <$> seq 0 r.

(** [f 0 + (f 1 + ... + (f (n-1) + 0))]. *)
Definition sum_upto (n : nat) (f : nat -> T) : T :=
  foldr (fun k acc => s_add (f k) acc) s_zero (seq 0 n).

Definition transpose (m : list (list T)) : list (list T) :=
  tabulate (cols m) (rows m) (fun i j => get m j i).

Definition mat_mul (A B : list (list T)) : list (list T) :=
  tabulate (rows A) (cols B)
    (fun i j => sum_upto (cols A) (fun k => s_mul (get A i k) (get B k j))).

Definition mat_add (A B : list (list T)) : list (list T) :=
  zip_with (zip_with s_add) A B.

(** Modelled from the spec: [implementation::add<backend, Matrix>::compute]
    (Add.h), "computes C := alpha·A + beta·B element-wise"; a shape
    mismatch is the kernel's failure. *)
Definition add_compute (A B C : list (list T)) (alpha beta : T)
  : option (list (list T)) :=
  if decide (shape A = shape B ∧ shape B = shape C) then
    Some (zip_with (zip_with (fun a b => s_add (s_mul alpha a) (s_mul beta b))) A B)
  else None.

(** Modelled from the spec: [implementation::scale<backend, Matrix>::compute]
    (Scale.h), "computes B := alpha·A". *)
Definition scale_compute (A B : list (list T)) (alpha : T)
  : option (list (list T)) :=
  if decide (shape A = shape B) then Some ((fun r : list T => s_mul alpha <$> r) <$> A) else None.

(** Modelled from the spec:
    [implementation::elementwise_product<backend, Matrix>::compute]
    (ElementwiseProduct.h), "computes C := A ⊙ B"; "requires A, B, C of
    identical shape". *)
Definition elementwise_product_compute (A B C : list (list T))
  : option (list (list T)) :=
  if decide (shape A = shape B ∧ shape B = shape C) then
    Some (zip_with (zip_with s_mul) A B)
  else None.

(** Modelled from the spec:
    [implementation::elementwise_square<backend, Matrix>::compute(m)]
    (ElementwiseSquare.h), the allocating form: "returns a newly
    constructed container" with "result[i,j] = m[i,j]²". *)
Definition elementwise_square_compute (m : list (list T))
  : option (list (list T)) :=
  Some ((fun r : list T => (fun x => s_mul x x) <$> r) <$> m).

(** Modelled from the spec:
    [implementation::elementwise_square<backend, Matrix>::compute(m, result)]
    (ElementwiseSquare.h), the non-allocating form: "writes into a
    caller-supplied result container"; every coefficient of [result] is
    overwritten with the square of the coefficient of [m] at its
    place. *)
Definition elementwise_square_compute_into (m result : list (list T))
  : option (list (list T)) :=
  if decide (shape m = shape result) then
    Some (zip_with (zip_with (fun x _ => s_mul x x)) m result)
  else None.

(** [op] of the spec's [op(A)·op(B)]. *)
Definition op (transposed : bool) (A : list (list T)) : list (list T) :=
  if transposed then transpose A else A.

(** The coefficient of [op(A)] at row [i], column [k], read in [A]. *)
Definition op_coeff (transposed : bool) (A : list (list T)) (i k : nat) : T :=
  if transposed then get A k i else get A i k.

(** Modelled from the spec:
    [implementation::matrix_product<backend, Matrix>::compute]
    (MatrixProduct.h): "computes C := op(A)·op(B) where op applies a
    transpose when its flag is set.  When overwrite is true, C is
    replaced; when false, the product is added into the existing
    contents of C". *)
Definition matrix_product_compute (A B C : list (list T))
  (transpose_A transpose_B overwrite : bool) : option (list (list T)) :=
  let A' := op transpose_A A in
  let B' := op transpose_B B in
  if decide (rectangular A ∧ rectangular B ∧ cols A' = rows B'
             ∧ shape C = replicate (rows A') (cols B')) then
    Some (if overwrite then mat_mul A' B' else mat_add C (mat_mul A' B'))
  else None.

(** The image read with its border "implicitly zero-padded". *)
Definition get_padded (X : list (list T)) (y x : Z) : T :=
  if decide (0 ≤ y < Z.of_nat (rows X) ∧ 0 ≤ x < Z.of_nat (cols X))%Z then
    get X (Z.to_nat y) (Z.to_nat x)
  else s_zero.

(** The weighted sum of the window of [X] centred at [(y, x)].  With
    [flip] it is the cross-correlation, that is the convolution with [W]
    reflected along both axes. *)
Definition window (X W : list (list T)) (flip : bool) (y x : Z) : T :=
  let ry := ((Z.of_nat (rows W) - 1) / 2)%Z in
  let rx := ((Z.of_nat (cols W) - 1) / 2)%Z in
  sum_upto (rows W) (fun a =>
    sum_upto (cols W) (fun b =>
      let dy := (Z.of_nat a - ry)%Z in
      let dx := (Z.of_nat b - rx)%Z in
      s_mul (get W a b)
        (if flip then get_padded X (y + dy) (x + dx)
         else get_padded X (y - dy) (x - dx)))).

(** The number of grid points [0, stride, 2*stride, ...] below [n]. *)
Definition out_size (n : nat) (stride : Z) : nat :=
  Z.to_nat ((Z.of_nat n + stride - 1) / stride).

(** Modelled from the spec:
    [implementation::convolve<backend, Matrix>::compute] (Convolve.h):
    the 2D convolution of [X] with [W] written into [Y]; "W's two
    dimensions must each be odd"; "the boundary is implicitly
    zero-padded, never cropped"; [overwrite] replaces or accumulates as
    in the matrix product; the strides "subsample the output grid". *)
Definition convolve_compute (X W Y : list (list T)) (flip overwrite : bool)
  (stride_x stride_y : Z) : option (list (list T)) :=
  let h := out_size (rows X) stride_y in
  let w := out_size (cols X) stride_x in
  if decide (rectangular X ∧ rectangular W
             ∧ Nat.odd (rows W) = true ∧ Nat.odd (cols W) = true
             ∧ (0 < stride_x)%Z ∧ (0 < stride_y)%Z
             ∧ shape Y = replicate h w) then
    Some (tabulate h w (fun i j =>
      let v := window X W flip (Z.of_nat i * stride_y) (Z.of_nat j * stride_x) in
      if overwrite then v else s_add (get Y i j) v))
  else None.

(** The [compute] entry points as the kernels of a registry: each takes
    the argument list of the call forwarded to it. *)
Definition spec_kernel (i : Impl) : Kernel T CType (list (list T)) :=
  fun args =>
    match i, args with
    | impl_add, [Mat _ A; Mat _ B; Mat _ C; Sc alpha; Sc beta] =>
        add_compute A B C alpha beta
    | impl_matrix_product,
      [Mat _ A; Mat _ B; Mat _ C; Flag tA; Flag tB; Flag overwrite] =>
        matrix_product_compute A B C tA tB overwrite
    | impl_scale, [Mat _ A; Mat _ B; Sc alpha] => scale_compute A B alpha
    | impl_elementwise_product, [Mat _ A; Mat _ B; Mat _ C] =>
        elementwise_product_compute A B C
    | impl_elementwise_square, [Mat _ m] => elementwise_square_compute m
    | impl_elementwise_square, [Mat _ m; Mat _ result] =>
        elementwise_square_compute_into m result
    | impl_convolve,
      [Mat _ X; Mat _ W; Mat _ Y; Flag flip; Flag overwrite; I32 sx; I32 sy] =>
        convolve_compute X W Y flip overwrite sx sy
    | _, _ => None
    end.

(** A registry in which every operation is specialized for every
    backend and container type. *)
Definition full_registry : Registry T CType (list (list T)) :=
  fun i _ _ => Some (spec_kernel i).

(** A registry of a build that has the kernels of the backends [avail]
    only. *)
Definition registry_of (avail : list Backend) : Registry T CType (list (list T)) :=
  fun i b _ => if decide (b ∈ avail) then Some (spec_kernel i) else None.

End Kernels.

(** ** Statements about the defaults, and sample builds *)

(** "The scalar coefficients alpha and beta may be omitted, and an
    omitted coefficient defaults to 1.0", for one function. *)
Definition coefficients_default_to_one {T} {ST : Scalar T} (CType Container : Type)
  (f : Function) : Prop :=
  ∀ p : Param T CType Container,
    p ∈ parameters f → p_name p = "alpha" ∨ p_name p = "beta" →
    p_default p = Some (Sc (s_lit 1)).

(** The macro of the feature gate. *)
Definition HAVE_LINALG_LIB : string := "HAVE_LINALG_LIB".

(** The eight functions in the order of their declaration. *)
Definition all_functions : list Function :=
  [fn_add; fn_matrix_product; fn_subtract; fn_scale; fn_elementwise_product;
   fn_elementwise_square; fn_elementwise_square_into; fn_convolve].

(** Container types for the sample builds: one of unbounded integers,
    whose arithmetic is that of [Scalar_Z], and one of [int32_t]. *)
Definition SGMatrix_int : string := "SGMatrix<integer>".
Definition SGMatrix_other : string := "SGMatrix<int32_t>".

(** A build without the extended backend, and one with it; both default
    to the reference backend and have every kernel. *)
Definition plain_build : Config Z string (list (list Z)) :=
  mk_config [] reference full_registry.

Definition extended_build : Config Z string (list (list Z)) :=
  mk_config [HAVE_LINALG_LIB] reference full_registry.

(** A build with the gate open whose only kernels are the reference
    backend's. *)
Definition reference_only_build : Config Z string (list (list Z)) :=
  mk_config [HAVE_LINALG_LIB] reference (registry_of [reference]).

Definition A0 : list (list Z) := [[1; 2]; [3; 4]].
Definition B0 : list (list Z) := [[5; 6]; [7; 8]].
Definition C0 : list (list Z) := [[0; 0]; [0; 0]].

(** An image of two rows and three columns, a kernel of one row and
    three columns, and an output of the image's shape. *)
Definition X0 : list (list Z) := [[1; 2; 3]; [4; 5; 6]].
Definition W0 : list (list Z) := [[1; 0; 0]].
Definition Y0 : list (list Z) := [[0; 0; 0]; [0; 0; 0]].

(** The least and the greatest number of function arguments a call of
    [f] can have: the parameters without a default argument, and all of
    them (Core.h, the eight signatures). *)
Definition arity (f : Function) : nat * nat :=
  match f with
  | fn_add => (3, 5)
  | fn_matrix_product => (3, 6)
  | fn_subtract => (3, 5)
  | fn_scale => (3, 3)
  | fn_elementwise_product => (3, 3)
  | fn_elementwise_square => (1, 1)
  | fn_elementwise_square_into => (2, 2)
  | fn_convolve => (3, 7)
  end%nat.

(** The class template of namespace [implementation] named in the body
    of [f]. *)
Definition impl_of (f : Function) : Impl :=
  match f with
  | fn_add => impl_add
  | fn_matrix_product => impl_matrix_product
  | fn_subtract => impl_add
  | fn_scale => impl_scale
  | fn_elementwise_product => impl_elementwise_product
  | fn_elementwise_square => impl_elementwise_square
  | fn_elementwise_square_into => impl_elementwise_square
  | fn_convolve => impl_convolve
  end.

(** Two functions that are one, or the two linear combinations, or the
    two overloads of [elementwise_square]. *)
Definition same_family (f g : Function) : Prop :=
  f = g
  ∨ (f = fn_add ∧ g = fn_subtract) ∨ (f = fn_subtract ∧ g = fn_add)
  ∨ (f = fn_elementwise_square ∧ g = fn_elementwise_square_into)
  ∨ (f = fn_elementwise_square_into ∧ g = fn_elementwise_square).

(** ** Containers with their places

    A container is a handle on storage, and a kernel writes its result
    through the handle of its output argument.  [Located] pairs the
    coefficients a container holds when the call is made with the place
    they are stored at; what a kernel yields is the container it has
    written, with its new coefficients, or a newly constructed one. *)
Inductive Place : Type :=
  | owned (address : nat)
  | newly_constructed.

Record Located (T : Type) : Type := located {
  place : Place;
  contents : list (list T)
}.
Arguments located {T} place contents.
Arguments place {T} _.
Arguments contents {T} _.

Section Storage.
Context {T : Type} {ST : Scalar T}.
Context {CType : Type}.

(** The scalar a value becomes when it is stored in a container of the
    given type. *)
Variable stored_as : CType -> T -> T.

(** The container [out], written with the coefficients a kernel
    computed. *)
Definition written (out : Located T) (r : option (list (list T)))
  : option (Located T) :=
  located (place out) <$> r.

(** Modelled from the spec: the [compute] entry points of the headers
    [Core.h] includes, on containers with their places.  Every kernel
    with a caller-supplied output "writes into the caller-supplied"
    container, the last container argument of its call, the
    coefficients computed from the contents of its arguments.  The
    allocating [elementwise_square] "returns a newly constructed
    container"; the non-allocating one writes into a result "of
    possibly different concrete type than m (enabling type conversion
    during the squaring)": each square is stored as a scalar of the
    result's type. *)
Definition located_kernel (i : Impl) : Kernel T CType (Located T) :=
  fun args =>
    match i, args with
    | impl_add, [Mat _ A; Mat _ B; Mat _ C; Sc alpha; Sc beta] =>
        written C (add_compute (contents A) (contents B) (contents C) alpha beta)
    | impl_matrix_product,
      [Mat _ A; Mat _ B; Mat _ C; Flag tA; Flag tB; Flag overwrite] =>
        written C
          (matrix_product_compute (contents A) (contents B) (contents C)
             tA tB overwrite)
    | impl_scale, [Mat _ A; Mat _ B; Sc alpha] =>
        written B (scale_compute (contents A) (contents B) alpha)
    | impl_elementwise_product, [Mat _ A; Mat _ B; Mat _ C] =>
        written C
          (elementwise_product_compute (contents A) (contents B) (contents C))
    | impl_elementwise_square, [Mat _ m] =>
        located newly_constructed <$> elementwise_square_compute (contents m)
    | impl_elementwise_square, [Mat _ m; Mat ResultMatrix result] =>
        written result
          ((fun squares : list (list T) =>
              (fun r : list T => stored_as ResultMatrix <$> r) <$> squares)
             <$> elementwise_square_compute_into (contents m) (contents result))
    | impl_convolve,
      [Mat _ X; Mat _ W; Mat _ Y; Flag flip; Flag overwrite; I32 sx; I32 sy] =>
        written Y
          (convolve_compute (contents X) (contents W) (contents Y)
             flip overwrite sx sy)
    | _, _ => None
    end.

(** A registry in which every operation is specialized for every
    backend and container type. *)
Definition located_registry : Registry T CType (Located T) :=
  fun i _ _ => Some (located_kernel i).

End Storage.

(** Storing an integer in the sample container types: [SGMatrix_other]
    holds [int32_t] and wraps, [SGMatrix_int] stores it as it is. *)
Definition stored_Z (ty : string) (x : Z) : Z :=
  if decide (ty = SGMatrix_other) then wrap32 x else x.

(** The sample builds on containers with their places. *)
Definition plain_storage_build : Config Z string (Located Z) :=
  mk_config [] reference (located_registry stored_Z).

Definition extended_storage_build : Config Z string (Located Z) :=
  mk_config [HAVE_LINALG_LIB] reference (located_registry stored_Z).

(** * Properties of the dispatch layer *)
Section DispatchFacts.
Context {T : Type} {ST : Scalar T}.
Context {CType : Type} `{EqDecision CType}.
Context {Container : Type}.
Implicit Types (cfg : Config T CType Container) (f : Function).
Implicit Types (args full : list (Arg T CType Container)).
Implicit Types (c : ComputeCall T CType Container).
Implicit Types (reg : Registry T CType Container).

Lemma deduce3_built f (tA tB tC : CType) (k : CType → ComputeCall T CType Container) c :
  deduce3 f tA tB tC k = built c → c = k tA ∧ tA = tB ∧ tB = tC.
Proof.
  unfold deduce3. case_decide as Heq; intros Hb; [|discriminate].
  injection Hb as <-. tauto.
Qed.

Lemma deduce2_built f (tA tB : CType) (k : CType → ComputeCall T CType Container) c :
  deduce2 f tA tB k = built c → c = k tA ∧ tA = tB.
Proof.
  unfold deduce2. case_decide as Heq; intros Hb; [|discriminate].
  injection Hb as <-. tauto.
Qed.

(** Every body passes its template argument [backend] on, unchanged. *)
Lemma forward_backend f (b : Backend) full c :
  forward f b full = built c → cc_backend c = b.
Proof.
  unfold forward. intros Hf.
  repeat case_match; try discriminate;
    first [ apply deduce3_built in Hf as [-> _]
          | apply deduce2_built in Hf as [-> _]
          | injection Hf as <- ]; reflexivity.
Qed.

(** A body fails to forward only for an argument list that does not fit
    it, or container types that do not agree. *)
Lemma forward_rejected f (b : Backend) full e :
  forward f b full = rejected e →
  e = no_matching_function f ∨ e = conflicting_types f.
Proof.
  unfold forward, deduce3, deduce2. intros Hf.
  repeat case_match; simplify_eq; auto.
Qed.

(** The negated coefficient of [subtract] is [add]'s [-beta]. *)
Lemma subtract_add (backend : Backend) (Matrix : CType) (A B C : Container)
  (alpha beta : T) :
  subtract backend Matrix A B C alpha beta
    = add backend Matrix A B C alpha (s_neg beta).
Proof. unfold subtract, add. rewrite s_neg1_mul. reflexivity. Qed.

Lemma resolve_built cfg f explicit args c :
  resolve cfg f explicit args = built c →
  f ∈ declared (macros cfg) ∧
  ∃ full, bind_arguments f args = Some full ∧
          forward f (backend_of cfg explicit) full = built c.
Proof.
  unfold resolve. case_decide as Hd; [|discriminate].
  destruct (bind_arguments f args) as [full|]; [|discriminate].
  intros Hf. split; [assumption|]. exists full. split; [reflexivity|assumption].
Qed.

Lemma resolve_omitted cfg f args :
  resolve cfg f None args = resolve cfg f (Some (linalg_traits_Core_backend cfg)) args.
Proof. reflexivity. Qed.

Lemma instantiate_None reg c :
  reg (cc_impl c) (cc_backend c) (cc_type c) = None →
  instantiate reg c = rejected (no_specialization (cc_impl c) (cc_backend c) (cc_type c)).
Proof. unfold instantiate. intros ->. reflexivity. Qed.

Lemma declared_cases (defined : list string) :
  declared defined =
    if bool_decide (HAVE_LINALG_LIB ∈ defined) then all_functions else [fn_add].
Proof.
  unfold declared, Core_h. simpl. fold HAVE_LINALG_LIB.
  destruct (bool_decide (HAVE_LINALG_LIB ∈ defined)); reflexivity.
Qed.

End DispatchFacts.

Section DispatchClaims.
Context {T : Type} {ST : Scalar T}.
Context {CType : Type} `{EqDecision CType}.
Context {Container : Type}.
Implicit Types (cfg : Config T CType Container) (f : Function).
Implicit Types (args full : list (Arg T CType Container)).
Implicit Types (c : ComputeCall T CType Container).
Implicit Types (reg : Registry T CType Container).

(** C1: [subtract(A, B, C, alpha, beta)] forwards the very call that
    [add(A, B, C, alpha, -beta)] forwards: the same entry point
    [implementation::add<backend, Matrix>::compute], on the same
    containers, with the second coefficient negated.  Hence under every
    registry of kernels the two are rejected alike or yield the same
    result, and what [subtract] yields is the [add] kernel's result. *)
Theorem subtract_is_add_negated (backend : Backend) (Matrix : CType)
  (A B C : Container) (alpha beta : T) :
  subtract backend Matrix A B C alpha beta
    = add backend Matrix A B C alpha (s_neg beta)
  ∧ cc_impl (subtract backend Matrix A B C alpha beta) = impl_add
  ∧ ∀ reg,
      instantiate reg (subtract backend Matrix A B C alpha beta)
        = instantiate reg (add backend Matrix A B C alpha (s_neg beta))
      ∧ instantiate reg (subtract backend Matrix A B C alpha beta)
        = match reg impl_add backend Matrix with
          | Some compute =>
              built (compute [Mat Matrix A; Mat Matrix B; Mat Matrix C;
                              Sc alpha; Sc (s_neg beta)])
          | None => rejected (no_specialization impl_add backend Matrix)
          end.
Proof.
  split; [apply subtract_add|]. split; [reflexivity|].
  intros reg. rewrite subtract_add. split; reflexivity.
Qed.

(** In a build that has [subtract], the calls agree as well, with the
    backend given or defaulted. *)
Lemma subtract_call_is_add_call cfg explicit (Matrix : CType)
  (A B C : Container) (alpha beta : T) :
  HAVE_LINALG_LIB ∈ macros cfg →
  call cfg fn_subtract explicit
      [Mat Matrix A; Mat Matrix B; Mat Matrix C; Sc alpha; Sc beta]
    = call cfg fn_add explicit
        [Mat Matrix A; Mat Matrix B; Mat Matrix C; Sc alpha; Sc (s_neg beta)].
Proof.
  intros Hm. unfold call, resolve. rewrite declared_cases.
  rewrite bool_decide_eq_true_2 by assumption.
  rewrite !decide_True by (unfold all_functions; rewrite !elem_of_cons; auto 10).
  simpl. unfold deduce3. rewrite !decide_True by (split; reflexivity).
  rewrite subtract_add. reflexivity.
Qed.

(** C2 (amended): the gate withholds everything except [add].  A build
    that does not define [HAVE_LINALG_LIB] declares [add] alone;
    [subtract] is behind the gate with [matrix_product], [scale],
    [elementwise_product], both [elementwise_square] and [convolve], and
    a call of any of the seven is rejected by such a build as a call of
    an undeclared function.  A build that defines the macro declares all
    eight. *)
Theorem feature_gate_withholds_all_but_add cfg :
  declared (macros cfg) =
    (if bool_decide (HAVE_LINALG_LIB ∈ macros cfg) then all_functions else [fn_add])
  ∧ (∀ f explicit args,
       ¬ HAVE_LINALG_LIB ∈ macros cfg → f ≠ fn_add →
       call cfg f explicit args = rejected (undeclared f))
  ∧ (∀ explicit args,
       ∀ e, call cfg fn_add explicit args ≠ rejected (undeclared e)).
Proof.
  split; [apply declared_cases|]. split.
  - intros f explicit args Hm Hf. unfold call, resolve.
    rewrite declared_cases, bool_decide_eq_false_2 by assumption.
    rewrite decide_False; [reflexivity|].
    rewrite list_elem_of_singleton. exact Hf.
  - intros explicit args e. unfold call, resolve.
    rewrite declared_cases.
    rewrite decide_True
      by (destruct (bool_decide _); unfold all_functions;
          rewrite !elem_of_cons; auto 10).
    destruct (bind_arguments fn_add args) as [full|]; [|discriminate].
    destruct (forward fn_add (backend_of cfg explicit) full) as [c|e'] eqn:Hf.
    + unfold instantiate. destruct (implementation cfg _ _ _); discriminate.
    + apply forward_rejected in Hf as [-> | ->]; discriminate.
Qed.

(** C3: whatever the function and the arguments, the call that is
    forwarded carries the backend tag the caller gave, and
    [linalg_traits<Core>::backend] when the caller gave none; omitting
    the tag is the same call as giving the default; so all calls of one
    function without a tag use one backend, the build's default. *)
Theorem backend_explicit_or_default cfg f explicit args c :
  resolve cfg f explicit args = built c →
  cc_backend c = match explicit with
                 | Some b => b
                 | None => linalg_traits_Core_backend cfg
                 end
  ∧ call cfg f None args
      = call cfg f (Some (linalg_traits_Core_backend cfg)) args
  ∧ ∀ args' c', resolve cfg f None args' = built c' →
                cc_backend c' = linalg_traits_Core_backend cfg.
Proof.
  intros Hr.
  apply resolve_built in Hr as (_ & full & _ & Hf).
  apply forward_backend in Hf.
  split; [destruct explicit; exact Hf|]. split; [reflexivity|].
  intros args' c' Hr'.
  apply resolve_built in Hr' as (_ & full' & _ & Hf').
  apply forward_backend in Hf'. exact Hf'.
Qed.

(** C4: a call whose (operation, backend, container type) triple has no
    specialization in the build is rejected by the build, with that
    triple as the reason: no kernel is applied, and the kernels that
    other backends have for the operation are not consulted. *)
Theorem unregistered_triple_rejected cfg f explicit args c :
  resolve cfg f explicit args = built c →
  implementation cfg (cc_impl c) (cc_backend c) (cc_type c) = None →
  call cfg f explicit args
    = rejected (no_specialization (cc_impl c) (cc_backend c) (cc_type c))
  ∧ cc_backend c = backend_of cfg explicit
  ∧ ∀ r, call cfg f explicit args ≠ built r.
Proof.
  intros Hr Hnone.
  assert (Hc : call cfg f explicit args
               = rejected (no_specialization (cc_impl c) (cc_backend c) (cc_type c))).
  { unfold call. rewrite Hr. apply instantiate_None, Hnone. }
  split; [exact Hc|]. split.
  - apply resolve_built in Hr as (_ & full & _ & Hf).
    apply forward_backend in Hf. exact Hf.
  - intros r. rewrite Hc. discriminate.
Qed.

(** C6 (amended): [add] and [subtract] give [alpha] and [beta] the
    default argument 1.0, so a call may leave out [beta], or both, and
    they are then 1.0.  [scale] has one coefficient, [alpha], without a
    default argument: a call of [scale] that leaves it out is
    ill-formed. *)
Theorem coefficient_defaults :
  coefficients_default_to_one CType Container fn_add
  ∧ coefficients_default_to_one CType Container fn_subtract
  ∧ (∀ f (A B C alpha : Arg T CType Container),
       f = fn_add ∨ f = fn_subtract →
       bind_arguments f [A; B; C]
         = Some [A; B; C; Sc (s_lit 1); Sc (s_lit 1)]
       ∧ bind_arguments f [A; B; C; alpha]
         = Some [A; B; C; alpha; Sc (s_lit 1)])
  ∧ p_default <$> parameters (CType:=CType) (Container:=Container) fn_scale
      = [None; None; None]
  ∧ ∀ A B : Arg T CType Container, bind_arguments fn_scale [A; B] = None.
Proof.
  split; [|split; [|split; [|split]]].
  - intros p Hp Hn. simpl in Hp.
    repeat (apply elem_of_cons in Hp as [->|Hp]);
      try (simpl in Hn; destruct Hn; discriminate); try reflexivity.
    apply elem_of_nil in Hp. contradiction.
  - intros p Hp Hn. simpl in Hp.
    repeat (apply elem_of_cons in Hp as [->|Hp]);
      try (simpl in Hn; destruct Hn; discriminate); try reflexivity.
    apply elem_of_nil in Hp. contradiction.
  - intros f A B C alpha [-> | ->]; split; reflexivity.
  - reflexivity.
  - reflexivity.
Qed.

(** C10: the call forwarded by the non-allocating [elementwise_square]
    names the specialization
    [implementation::elementwise_square<backend, Matrix>]: its triple is
    made of the backend and the type of [m].  [ResultMatrix] is not part
    of it, no agreement between the two types is asked for, and whether
    the build has the specialization does not depend on the result's
    type. *)
Theorem elementwise_square_result_type_irrelevant (backend : Backend)
  (Matrix ResultMatrix : CType) (m result : Container) :
  let c : ComputeCall T CType Container :=
    elementwise_square_into backend Matrix ResultMatrix m result in
  (cc_impl c, cc_backend c, cc_type c)
    = (impl_elementwise_square, backend, Matrix)
  ∧ forward fn_elementwise_square_into backend
      [Mat Matrix m; Mat ResultMatrix result] = built c
  ∧ ∀ (ResultMatrix' : CType) (result' : Container),
      let c' : ComputeCall T CType Container :=
        elementwise_square_into backend Matrix ResultMatrix' m result' in
      (cc_impl c', cc_backend c', cc_type c') = (cc_impl c, cc_backend c, cc_type c)
      ∧ ∀ reg,
          instantiate reg c
            = match reg impl_elementwise_square backend Matrix with
              | Some compute => built (compute [Mat Matrix m; Mat ResultMatrix result])
              | None => rejected (no_specialization impl_elementwise_square backend Matrix)
              end.
Proof.
  simpl. repeat split.
Qed.

End DispatchClaims.

(** * Properties of the containers *)
Section ContainerFacts.
Context {T : Type} {ST : Scalar T}.
Implicit Types (m A B C : list (list T)) (i j k r c n : nat).
Local Open Scope nat_scope.

Lemma fmap_seq_const (g : nat → nat) c s r :
  (∀ i, g i = c) → g <$> seq s r = replicate r c.
Proof.
  intros Hg. revert s. induction r as [|r IH]; intros s; simpl; [reflexivity|].
  rewrite Hg, IH. reflexivity.
Qed.

Lemma shape_tabulate r c (f : nat → nat → T) : shape (tabulate r c f) = replicate r c.
Proof.
  unfold shape, tabulate. rewrite <- list_fmap_compose.
  apply fmap_seq_const. intros i. simpl. rewrite length_fmap, length_seq. reflexivity.
Qed.

Lemma rows_tabulate r c (f : nat → nat → T) : rows (tabulate r c f) = r.
Proof. unfold rows, tabulate. rewrite length_fmap, length_seq. reflexivity. Qed.

Lemma cols_tabulate_le r c (f : nat → nat → T) : cols (tabulate r c f) ≤ c.
Proof.
  unfold cols, tabulate. destruct r as [|r]; simpl; [lia|].
  rewrite length_fmap, length_seq. lia.
Qed.

Lemma coeff_tabulate r c (f : nat → nat → T) i j :
  i < r → j < c → coeff (tabulate r c f) i j = Some (f i j).
Proof.
  intros Hi Hj. unfold coeff, tabulate.
  rewrite list_lookup_fmap, lookup_seq_lt by assumption. simpl.
  rewrite list_lookup_fmap, lookup_seq_lt by assumption. reflexivity.
Qed.

Lemma get_coeff m i j (x : T) : coeff m i j = Some x → get m i j = x.
Proof. unfold get. intros ->. reflexivity. Qed.

Lemma get_tabulate r c (f : nat → nat → T) i j :
  i < r → j < c → get (tabulate r c f) i j = f i j.
Proof. intros Hi Hj. apply get_coeff, coeff_tabulate; assumption. Qed.

(** A position inside the shape holds a coefficient. *)
Lemma coeff_in_shape m i j n :
  shape m !! i = Some n → j < n → is_Some (coeff m i j).
Proof.
  unfold shape, coeff. rewrite list_lookup_fmap.
  destruct (m !! i) as [row|]; simpl; [|discriminate].
  intros [= <-] Hj. apply lookup_lt_is_Some_2, Hj.
Qed.

Lemma coeff_in_replicate m i j r c :
  shape m = replicate r c → i < r → j < c → is_Some (coeff m i j).
Proof.
  intros Hs Hi Hj. apply (coeff_in_shape m i j c); [|assumption].
  rewrite Hs. apply lookup_replicate_2, Hi.
Qed.

Lemma coeff_zip_with (f : T → T → T) A B i j (a b : T) :
  coeff A i j = Some a → coeff B i j = Some b →
  coeff (zip_with (zip_with f) A B) i j = Some (f a b).
Proof.
  unfold coeff. rewrite lookup_zip_with.
  destruct (A !! i) as [ra|]; simpl; [|discriminate].
  destruct (B !! i) as [rb|]; simpl; [|discriminate].
  rewrite lookup_zip_with. intros -> ->. reflexivity.
Qed.

Lemma shape_zip_with (f : T → T → T) A B :
  shape A = shape B → shape (zip_with (zip_with f) A B) = shape A.
Proof.
  unfold shape. revert B. induction A as [|ra A IH]; intros [|rb B] Hs;
    simpl in *; try discriminate; [reflexivity|].
  injection Hs as Hl Hs. rewrite length_zip_with, IH by assumption.
  f_equal. lia.
Qed.






Lemma sum_upto_ext n (f g : nat → T) :
  (∀ k, k < n → f k = g k) → sum_upto n f = sum_upto n g.
Proof.
  unfold sum_upto. intros Hfg.
  assert (Hall : ∀ k, k ∈ seq 0 n → f k = g k).
  { intros k Hk. apply elem_of_seq in Hk. apply Hfg. lia. }
  induction (seq 0 n) as [|k l IH]; simpl; [reflexivity|].
  rewrite (Hall k) by (left). rewrite IH; [reflexivity|].
  intros k' Hk'. apply Hall. right. exact Hk'.
Qed.

Lemma rows_op (tA : bool) A : rows (op tA A) = if tA then cols A else rows A.
Proof. destruct tA; simpl; [apply rows_tabulate|reflexivity]. Qed.

(** A coefficient of [op(A)] is the coefficient of [A] at the same or
    at the mirrored place. *)
Lemma get_op (tA : bool) A i k :
  i < rows (op tA A) → k < cols (op tA A) → get (op tA A) i k = op_coeff tA A i k.
Proof.
  destruct tA; simpl; [|reflexivity]. unfold transpose. intros Hi Hk.
  rewrite rows_tabulate in Hi.
  pose proof (cols_tabulate_le (cols A) (rows A) (fun i j => get A j i)) as Hle.
  rewrite get_tabulate by lia. reflexivity.
Qed.


End ContainerFacts.

(** * Properties of the kernels behind the dispatch layer *)
Section KernelFacts.
Context {T : Type} {ST : Scalar T}.
Implicit Types (m A B C X W Y : list (list T)) (i j k : nat).
Local Open Scope nat_scope.

Lemma add_compute_conformable A B C (alpha beta : T) :
  shape A = shape B → shape B = shape C →
  ∃ C', add_compute A B C alpha beta = Some C'
    ∧ shape C' = shape C
    ∧ ∀ i j a b, coeff A i j = Some a → coeff B i j = Some b →
        coeff C' i j = Some (s_add (s_mul alpha a) (s_mul beta b)).
Proof.
  intros HAB HBC. unfold add_compute. rewrite decide_True by (split; assumption).
  eexists. split; [reflexivity|]. split.
  - rewrite shape_zip_with by assumption. congruence.
  - intros i j a b Ha Hb.
    apply (coeff_zip_with (fun a b => s_add (s_mul alpha a) (s_mul beta b)));
      assumption.
Qed.


Lemma coeff_mat_mul A B i j :
  i < rows A → j < cols B →
  coeff (mat_mul A B) i j
    = Some (sum_upto (cols A) (fun k => s_mul (get A i k) (get B k j))).
Proof.
  intros Hi Hj. unfold mat_mul. rewrite coeff_tabulate by assumption. reflexivity.
Qed.

(** The product of [op(A)] and [op(B)], coefficient by coefficient, in
    the coefficients of [A] and [B]. *)
Lemma coeff_mat_mul_op (tA tB : bool) A B i j :
  cols (op tA A) = rows (op tB B) →
  i < rows (op tA A) → j < cols (op tB B) →
  coeff (mat_mul (op tA A) (op tB B)) i j
    = Some (sum_upto (cols (op tA A))
              (fun k => s_mul (op_coeff tA A i k) (op_coeff tB B k j))).
Proof.
  intros Hin Hi Hj. rewrite coeff_mat_mul by assumption. f_equal.
  apply sum_upto_ext. intros k Hk.
  rewrite !get_op by lia. reflexivity.
Qed.

End KernelFacts.

Section KernelClaims.
Context {T : Type} {ST : Scalar T}.
Context {CType : Type} `{EqDecision CType}.
Implicit Types (m A B C X W Y : list (list T)) (i j k : nat).
Local Open Scope nat_scope.

(** C7: for conformable [A], [B], [C], [matrix_product] with
    [overwrite=false] leaves in [C] its former contents plus
    [op(A)·op(B)], and with [overwrite=true] replaces [C] by
    [op(A)·op(B)]; coefficient by coefficient, the product is the sum
    over [k] of [op(A)[i,k] * op(B)[k,j]], where [op] reads the mirrored
    coefficient when its flag is set.  A call that leaves [overwrite]
    out replaces. *)
Theorem matrix_product_overwrite_or_accumulate (backend : Backend)
  (Matrix : CType) A B C (transpose_A transpose_B : bool) :
  rectangular A → rectangular B →
  cols (op transpose_A A) = rows (op transpose_B B) →
  shape C = replicate (rows (op transpose_A A)) (cols (op transpose_B B)) →
  let P := mat_mul (op transpose_A A) (op transpose_B B) in
  let dot i j :=
    sum_upto (cols (op transpose_A A))
      (fun k => s_mul (op_coeff transpose_A A i k) (op_coeff transpose_B B k j)) in
  instantiate full_registry
      (matrix_product backend Matrix A B C transpose_A transpose_B false)
    = built (Some (mat_add C P))
  ∧ instantiate full_registry
      (matrix_product backend Matrix A B C transpose_A transpose_B true)
    = built (Some P)
  ∧ shape (mat_add C P) = shape C ∧ shape P = shape C
  ∧ (∀ i j, i < rows (op transpose_A A) → j < cols (op transpose_B B) →
       coeff P i j = Some (dot i j)
       ∧ coeff (mat_add C P) i j = Some (s_add (get C i j) (dot i j)))
  ∧ bind_arguments fn_matrix_product
      [Mat Matrix A; Mat Matrix B; Mat Matrix C; Flag transpose_A; Flag transpose_B]
    = Some [Mat Matrix A; Mat Matrix B; Mat Matrix C;
            Flag transpose_A; Flag transpose_B; Flag true]
  ∧ bind_arguments fn_matrix_product [Mat Matrix A; Mat Matrix B; Mat Matrix C]
    = Some [Mat Matrix A; Mat Matrix B; Mat Matrix C;
            Flag false; Flag false; Flag true].
Proof.
  intros HA HB Hin HC P dot.
  assert (HP : shape P = shape C).
  { unfold P, mat_mul. rewrite shape_tabulate, HC. reflexivity. }
  assert (Hrun : ∀ overwrite,
    instantiate (CType:=CType) full_registry
      (matrix_product backend Matrix A B C transpose_A transpose_B overwrite)
    = built (Some (if overwrite then P else mat_add C P))).
  { intros overwrite. unfold instantiate. simpl. unfold matrix_product_compute.
    rewrite decide_True by auto. reflexivity. }
  split; [apply (Hrun false)|]. split; [apply (Hrun true)|].
  split; [unfold mat_add; apply shape_zip_with; congruence|].
  split; [exact HP|]. split; [|split; reflexivity].
  intros i j Hi Hj.
  assert (HPij : coeff P i j = Some (dot i j))
    by (apply coeff_mat_mul_op; assumption).
  split; [exact HPij|].
  destruct (coeff_in_replicate C i j _ _ HC Hi Hj) as [x Hx].
  rewrite (get_coeff _ _ _ _ Hx).
  unfold mat_add. apply coeff_zip_with; assumption.
Qed.



End KernelClaims.

(** C5: for conformable [A], [B], [C] and all [alpha], [beta], [add]
    writes the container [C], and no other: it yields [C] with
    coefficients of the same shape, the one at every place being
    [alpha*A[i,j] + beta*B[i,j]]; and the call [add(A, B, C, 1, 1)] with
    [A = [[1,2],[3,4]]] and [B = [[5,6],[7,8]]] leaves
    [[[6,8],[10,12]]] in [C], in a build without [HAVE_LINALG_LIB]
    too. *)
Theorem add_linear_combination :
  (∀ (T : Type) (ST : Scalar T) (CType : Type) (stored_as : CType → T → T)
     (backend : Backend) (Matrix : CType) (A B C : Located T) (alpha beta : T),
     shape (contents A) = shape (contents B) →
     shape (contents B) = shape (contents C) →
     ∃ C', instantiate (located_registry stored_as)
             (add backend Matrix A B C alpha beta)
             = built (Some (located (place C) C'))
       ∧ shape C' = shape (contents C)
       ∧ ∀ i j a b,
           coeff (contents A) i j = Some a → coeff (contents B) i j = Some b →
           coeff C' i j = Some (s_add (s_mul alpha a) (s_mul beta b)))
  ∧ (∀ (a b c : Place) (C : list (list Z)), shape C = [2; 2]%nat →
       call plain_storage_build fn_add None
         [Mat SGMatrix_int (located a A0); Mat SGMatrix_int (located b B0);
          Mat SGMatrix_int (located c C); Sc 1; Sc 1]
         = built (Some (located c [[6; 8]; [10; 12]]))).
Proof.
  split.
  - intros T ST CType stored_as backend Matrix A B C alpha beta HAB HBC.
    destruct (add_compute_conformable (contents A) (contents B) (contents C)
                alpha beta HAB HBC) as (C' & Hrun & Hshape & Hcoeff).
    exists C'. split; [|split; assumption].
    unfold instantiate. simpl. unfold written. rewrite Hrun. reflexivity.
  - intros a b c C HC.
    change (built (CType:=string)
              (written (located c C) (add_compute A0 B0 C 1 1))
            = built (Some (located c [[6; 8]; [10; 12]]))).
    unfold add_compute.
    rewrite decide_True by (split; [reflexivity|symmetry; exact HC]).
    reflexivity.
Qed.

(** * The claims at concrete builds and containers *)

(** C2, as stated, fails: the build without [HAVE_LINALG_LIB] does not
    declare [subtract], and rejects a call of it, while it accepts the
    same call of [add]. *)
Lemma subtract_is_behind_the_gate :
  ¬ (fn_add ∈ declared (macros plain_build)
     ∧ fn_subtract ∈ declared (macros plain_build))
  ∧ call plain_build fn_subtract None
      [Mat SGMatrix_int A0; Mat SGMatrix_int B0; Mat SGMatrix_int C0]
    = rejected (undeclared fn_subtract)
  ∧ call plain_build fn_add None
      [Mat SGMatrix_int A0; Mat SGMatrix_int B0; Mat SGMatrix_int C0]
    = built (Some [[6; 8]; [10; 12]]).
Proof.
  split; [|split; reflexivity].
  intros [_ Hs]. change (fn_subtract ∈ [fn_add]) in Hs.
  apply list_elem_of_singleton in Hs. discriminate.
Qed.

Lemma feature_gate_witness :
  call plain_build fn_subtract (Some reference)
      [Mat SGMatrix_int A0; Mat SGMatrix_int B0; Mat SGMatrix_int C0]
    = rejected (undeclared fn_subtract).
Proof.
  apply (proj1 (proj2 (feature_gate_withholds_all_but_add plain_build))).
  - simpl. intros Hm. apply elem_of_nil in Hm. exact Hm.
  - discriminate.
Defined.

Lemma backend_explicit_or_default_witness :
  resolve extended_build fn_scale (Some accelerator)
      [Mat SGMatrix_int A0; Mat SGMatrix_int C0; Sc 2%Z]
    = built (scale accelerator SGMatrix_int A0 C0 2%Z)
  ∧ cc_backend (scale (T:=Z) accelerator SGMatrix_int A0 C0 2%Z) = accelerator.
Proof.
  split; [reflexivity|].
  apply (backend_explicit_or_default extended_build fn_scale (Some accelerator)
           [Mat SGMatrix_int A0; Mat SGMatrix_int C0; Sc 2%Z]
           (scale accelerator SGMatrix_int A0 C0 2%Z)).
  reflexivity.
Defined.

Lemma unregistered_triple_rejected_witness :
  implementation reference_only_build impl_add accelerator SGMatrix_int = None
  ∧ implementation reference_only_build impl_add reference SGMatrix_int
      = Some (spec_kernel impl_add)
  ∧ call reference_only_build fn_add (Some accelerator)
      [Mat SGMatrix_int A0; Mat SGMatrix_int B0; Mat SGMatrix_int C0]
    = rejected (no_specialization impl_add accelerator SGMatrix_int).
Proof.
  split; [reflexivity|]. split; [reflexivity|].
  apply (unregistered_triple_rejected reference_only_build fn_add (Some accelerator)
           [Mat SGMatrix_int A0; Mat SGMatrix_int B0; Mat SGMatrix_int C0]
           (add accelerator SGMatrix_int A0 B0 C0 1%Z 1%Z)); reflexivity.
Defined.

(** C6, as stated, fails at [scale]: its [alpha] has no default
    argument, and the call [scale(A, B)] is ill-formed. *)
Lemma scale_alpha_has_no_default :
  ¬ coefficients_default_to_one (ST:=Scalar_Z) string (list (list Z)) fn_scale
  ∧ call extended_build fn_scale None
      [Mat SGMatrix_int A0; Mat SGMatrix_int C0]
    = rejected (no_matching_function fn_scale)
  ∧ call extended_build fn_scale None
      [Mat SGMatrix_int A0; Mat SGMatrix_int C0; Sc 2%Z]
    = built (Some [[2; 4]; [6; 8]]).
Proof.
  split; [|split; reflexivity].
  intros Hd. specialize (Hd (required "alpha")).
  assert (Hn : @None (Arg Z string (list (list Z))) = Some (Sc (s_lit 1))); [|discriminate].
  apply Hd; [|left; reflexivity].
  simpl. rewrite !elem_of_cons. auto.
Qed.

Lemma coefficient_defaults_witness :
  bind_arguments fn_subtract
      [Mat SGMatrix_int A0; Mat SGMatrix_int B0; Mat SGMatrix_int C0]
    = Some [Mat SGMatrix_int A0; Mat SGMatrix_int B0; Mat SGMatrix_int C0;
            Sc 1%Z; Sc 1%Z].
Proof.
  exact (proj1 (proj1 (proj2 (proj2 (coefficient_defaults (ST:=Scalar_Z)))) fn_subtract
           (Mat SGMatrix_int A0) (Mat SGMatrix_int B0) (Mat SGMatrix_int C0)
           (Sc 7%Z) (or_intror eq_refl))).
Defined.

Lemma add_linear_combination_witness :
  shape A0 = shape B0 ∧ shape B0 = shape C0
  ∧ ∃ C', instantiate (located_registry stored_Z)
            (add reference SGMatrix_int (located (owned 1) A0)
               (located (owned 2) B0) (located (owned 3) C0) 2%Z 3%Z)
          = built (Some (located (owned 3) C'))
      ∧ shape C' = shape C0
      ∧ ∀ i j a b, coeff A0 i j = Some a → coeff B0 i j = Some b →
          coeff C' i j = Some (2 * a + 3 * b)%Z.
Proof.
  split; [reflexivity|]. split; [reflexivity|].
  apply (proj1 add_linear_combination Z Scalar_Z string stored_Z reference
           SGMatrix_int (located (owned 1) A0) (located (owned 2) B0)
           (located (owned 3) C0) 2%Z 3%Z); reflexivity.
Defined.

Lemma matrix_product_witness :
  instantiate (CType:=string) full_registry
      (matrix_product reference SGMatrix_int A0 B0 A0 true false false)
    = built (Some [[27; 32]; [41; 48]])
  ∧ instantiate (CType:=string) full_registry
      (matrix_product reference SGMatrix_int A0 B0 A0 true false true)
    = built (Some [[26; 30]; [38; 44]]).
Proof.
  destruct (matrix_product_overwrite_or_accumulate (ST:=Scalar_Z) reference SGMatrix_int
              A0 B0 A0 true false) as (Hacc & Hrep & _); try reflexivity.
  split; [exact Hacc|exact Hrep].
Defined.



(** * The scenarios of the interface, run *)

(** [subtract(A, B, C)] with both coefficients left out is [A - B]. *)
Example subtract_scenario :
  call extended_build fn_subtract None
    [Mat SGMatrix_int A0; Mat SGMatrix_int B0; Mat SGMatrix_int C0]
  = built (Some [[-4; -4]; [-4; -4]]).
Proof. reflexivity. Qed.

Example subtract_call_is_add_call_scenario :
  call extended_build fn_subtract (Some vectorized_cpu)
    [Mat SGMatrix_int A0; Mat SGMatrix_int B0; Mat SGMatrix_int C0; Sc 2%Z; Sc 3%Z]
  = call extended_build fn_add (Some vectorized_cpu)
    [Mat SGMatrix_int A0; Mat SGMatrix_int B0; Mat SGMatrix_int C0; Sc 2%Z; Sc (-3)%Z].
Proof.
  apply (subtract_call_is_add_call (ST:=Scalar_Z) extended_build (Some vectorized_cpu)
           SGMatrix_int A0 B0 C0 2%Z 3%Z).
  left.
Qed.

(** In [int32_t] the negated coefficient wraps around as [-1*beta]
    does: for the least value both are the least value. *)
Example subtract_int32_least :
  subtract reference SGMatrix_other [[i32 1]] [[i32 1]] [[i32 0]]
    (i32 1) (i32 (- 2 ^ 31))
  = add reference SGMatrix_other [[i32 1]] [[i32 1]] [[i32 0]]
    (i32 1) (i32 (- 2 ^ 31)).
Proof. reflexivity. Qed.

Example scale_scenario :
  call extended_build fn_scale None
    [Mat SGMatrix_int A0; Mat SGMatrix_int C0; Sc 2%Z]
  = built (Some [[2; 4]; [6; 8]]).
Proof. reflexivity. Qed.

Example elementwise_square_scenario :
  call extended_build fn_elementwise_square None [Mat SGMatrix_int A0]
    = built (Some [[1; 4]; [9; 16]])
  ∧ call extended_build fn_elementwise_square_into None
      [Mat SGMatrix_int A0; Mat SGMatrix_other C0]
    = built (Some [[1; 4]; [9; 16]]).
Proof. split; reflexivity. Qed.

(** Three container arguments of one function must have one type. *)
Example add_conflicting_types :
  call plain_build fn_add None
    [Mat SGMatrix_int A0; Mat SGMatrix_other B0; Mat SGMatrix_int C0]
  = rejected (conflicting_types fn_add).
Proof. reflexivity. Qed.

(** The border of the image reads as zero: the kernel [[1 0 0]] shifts
    every row by one place, a zero entering at the end (convolution) or
    at the start (cross-correlation). *)
Example convolve_scenario :
  call extended_build fn_convolve None
    [Mat SGMatrix_int X0; Mat SGMatrix_int W0; Mat SGMatrix_int Y0]
    = built (Some [[2; 3; 0]; [5; 6; 0]])
  ∧ call extended_build fn_convolve None
      [Mat SGMatrix_int X0; Mat SGMatrix_int W0; Mat SGMatrix_int Y0; Flag true]
    = built (Some [[0; 1; 2]; [0; 4; 5]]).
Proof. split; reflexivity. Qed.

(** A kernel with an even dimension is the backend's failure at run
    time, not the build's. *)
Example convolve_even_kernel :
  call extended_build fn_convolve None
    [Mat SGMatrix_int X0; Mat SGMatrix_int [[1; 0]]; Mat SGMatrix_int Y0]
  = built None.
Proof. reflexivity. Qed.

(** * Further properties of the dispatch layer *)
Section BindingFacts.
Context {T : Type} {ST : Scalar T}.
Context {CType : Type} `{EqDecision CType}.
Context {Container : Type}.
Implicit Types (cfg : Config T CType Container) (f : Function).
Implicit Types (ps : list (Param T CType Container)).
Implicit Types (args full : list (Arg T CType Container)).
Implicit Types (c : ComputeCall T CType Container).
Local Open Scope nat_scope.
Local Open Scope list_scope.

(** Binding keeps the actual arguments, in their order, and appends the
    default arguments of the parameters that are left. *)
Lemma complete_app ps args full :
  complete ps args = Some full →
  length args ≤ length ps
  ∧ ∃ ds, full = args ++ ds
          ∧ Some <$> ds = p_default <$> drop (length args) ps.
Proof.
  revert args full. induction ps as [|p ps IH]; intros [|a args] full Hc;
    simpl in Hc; try discriminate.
  - injection Hc as <-. split; [reflexivity|]. exists []. split; reflexivity.
  - destruct (p_default p) as [d|] eqn:Hd; [|discriminate].
    destruct (complete ps []) as [rest|] eqn:Hrest; [|discriminate].
    injection Hc as <-. apply IH in Hrest as (_ & ds & -> & Hds).
    split; [simpl; lia|]. exists (d :: ds). split; [reflexivity|].
    change (Some d :: (Some <$> ds) = p_default p :: (p_default <$> ps)).
    rewrite Hd. f_equal. exact Hds.
  - destruct (complete ps args) as [rest|] eqn:Hrest; [|discriminate].
    injection Hc as <-. apply IH in Hrest as (Hlen & ds & -> & Hds).
    split; [simpl; lia|]. exists ds. split; [reflexivity|exact Hds].
Qed.

Lemma complete_length ps args full :
  complete ps args = Some full → length full = length ps.
Proof.
  revert args full. induction ps as [|p ps IH]; intros [|a args] full Hc;
    simpl in Hc; try discriminate.
  - injection Hc as <-. reflexivity.
  - destruct (p_default p); [|discriminate].
    destruct (complete ps []) as [rest|] eqn:Hrest; [|discriminate].
    injection Hc as <-. simpl. f_equal. apply (IH _ _ Hrest).
  - destruct (complete ps args) as [rest|] eqn:Hrest; [|discriminate].
    injection Hc as <-. simpl. f_equal. apply (IH _ _ Hrest).
Qed.

(** A complete argument list binds to itself. *)
Lemma complete_full ps full :
  length full = length ps → complete ps full = Some full.
Proof.
  revert full. induction ps as [|p ps IH]; intros [|a full] Hl;
    simpl in *; try discriminate; [reflexivity|].
  rewrite IH by lia. reflexivity.
Qed.

Lemma forward_args f (b : Backend) full c :
  forward f b full = built c → f ≠ fn_subtract → cc_args c = full.
Proof.
  unfold forward, deduce3, deduce2. intros Hf Hn.
  repeat case_match; simplify_eq; try reflexivity;
    repeat match goal with Hand : _ ∧ _ |- _ => destruct Hand end;
    subst; reflexivity.
Qed.

Lemma forward_subtract_args (b : Backend) full c :
  forward fn_subtract b full = built c →
  ∃ init beta, full = init ++ [Sc beta]
               ∧ cc_args c = init ++ [Sc (s_neg beta)].
Proof.
  unfold forward, deduce3. intros Hf.
  repeat case_match; simplify_eq.
  match goal with Hand : _ ∧ _ |- _ => destruct Hand end. subst.
  match goal with
  | |- ∃ _ _, [?a1; ?a2; ?a3; ?a4; Sc ?x] = _ ∧ _ =>
      exists [a1; a2; a3; a4], x
  end.
  split; [reflexivity|]. simpl. rewrite s_neg1_mul. reflexivity.
Qed.

Lemma forward_impl f (b : Backend) full c :
  forward f b full = built c → cc_impl c = impl_of f.
Proof.
  unfold forward, deduce3, deduce2. intros Hf.
  repeat case_match; simplify_eq; reflexivity.
Qed.

(** The container arguments of a forwarded call have the type the
    specialization is selected by; for the overload of
    [elementwise_square] with a result this holds of [m]. *)
Lemma forward_types f (b : Backend) full c :
  forward f b full = built c →
  (f ≠ fn_elementwise_square_into →
   ∀ ty (m : Container), Mat ty m ∈ full → ty = cc_type c)
  ∧ ∃ m rest, full = Mat (cc_type c) m :: rest.
Proof.
  unfold forward, deduce3, deduce2. intros Hf.
  repeat case_match; simplify_eq;
    repeat match goal with Hand : _ ∧ _ |- _ => destruct Hand end; subst;
    (split; [|eexists _, _; reflexivity]);
    intros Hn ty' cont Hin; try (exfalso; apply Hn; reflexivity);
    repeat (apply elem_of_cons in Hin as [Hin|Hin]; simplify_eq; try reflexivity);
    apply elem_of_nil in Hin; contradiction.
Qed.

Lemma same_family_impl f g : impl_of f = impl_of g → same_family f g.
Proof.
  unfold same_family. destruct f, g; simpl; intros Hi; try discriminate; tauto.
Qed.

End BindingFacts.

Section DispatchExtras.
Context {T : Type} {ST : Scalar T}.
Context {CType : Type} `{EqDecision CType}.
Context {Container : Type}.
Implicit Types (cfg : Config T CType Container) (f g : Function).
Implicit Types (args full : list (Arg T CType Container)).
Implicit Types (c : ComputeCall T CType Container).
Local Open Scope nat_scope.
Local Open Scope list_scope.

Lemma parameters_length f :
  length (parameters (T:=T) (CType:=CType) (Container:=Container) f)
    = snd (arity f).
Proof. destruct f; reflexivity. Qed.

Lemma bind_arguments_nil f :
  bind_arguments (T:=T) (CType:=CType) (Container:=Container) f [] = None.
Proof. destruct f; reflexivity. Qed.

(** X1: the argument list of a call of [f] binds to the parameters of
    [f] exactly when its length lies between the number of parameters
    without a default argument and the number of all parameters. *)
Theorem bind_arguments_iff_arity f args :
  is_Some (bind_arguments f args)
  ↔ fst (arity f) ≤ length args ≤ snd (arity f).
Proof.
  unfold bind_arguments.
  destruct f; simpl;
    do 8 (try destruct args as [|? args]); simpl;
    (split;
     [ intros [full Hfull]; try discriminate; lia
     | intros [Hlo Hhi]; try lia; eexists; reflexivity ]).
Qed.

(** X2: binding neither changes nor reorders the arguments of the call:
    the complete list is the given one followed by the default
    arguments of the parameters left over, one for each parameter. *)
Theorem bind_arguments_appends_defaults f args full :
  bind_arguments f args = Some full →
  length full = snd (arity f)
  ∧ ∃ ds, full = args ++ ds
          ∧ Some <$> ds = p_default <$> drop (length args) (parameters f).
Proof.
  unfold bind_arguments. intros Hb. split.
  - rewrite (complete_length _ _ _ Hb). apply parameters_length.
  - apply complete_app in Hb as (_ & ds & Hfull & Hds). exists ds. auto.
Qed.

(** X3: a call that leaves trailing arguments out is the call that
    writes their default arguments: the complete list binds to itself,
    and the two calls have one outcome in every build. *)
Theorem omitted_arguments_are_defaults cfg f explicit args full :
  bind_arguments f args = Some full →
  bind_arguments f full = Some full
  ∧ resolve cfg f explicit args = resolve cfg f explicit full
  ∧ call cfg f explicit args = call cfg f explicit full.
Proof.
  intros Hb.
  assert (Hfull : bind_arguments f full = Some full).
  { unfold bind_arguments in *. apply complete_full.
    apply (complete_length _ _ _ Hb). }
  assert (Hr : resolve cfg f explicit args = resolve cfg f explicit full).
  { unfold resolve. rewrite Hb, Hfull. reflexivity. }
  split; [exact Hfull|]. split; [exact Hr|].
  unfold call. rewrite Hr. reflexivity.
Qed.

(** X4: every function but [subtract] passes its complete argument list
    to [compute] as it is, in the order of its parameters; [subtract]
    passes all but the last as they are and the last, [beta], negated. *)
Theorem arguments_forwarded_unchanged cfg f explicit args c :
  resolve cfg f explicit args = built c →
  ∃ full, bind_arguments f args = Some full
    ∧ (f ≠ fn_subtract → cc_args c = full)
    ∧ (f = fn_subtract →
       ∃ init beta, full = init ++ [Sc beta]
                    ∧ cc_args c = init ++ [Sc (s_neg beta)]).
Proof.
  intros Hr. apply resolve_built in Hr as (_ & full & Hb & Hf).
  exists full. split; [exact Hb|]. split.
  - intros Hn. apply (forward_args _ _ _ _ Hf Hn).
  - intros ->. apply (forward_subtract_args _ _ _ Hf).
Qed.

(** X5: two calls reach the same class template of [implementation]
    exactly when their functions are the same, or are [add] and
    [subtract], or are the two overloads of [elementwise_square]. *)
Theorem implementation_shared_iff_same_family cfg f g explicit explicit'
  args args' c c' :
  resolve cfg f explicit args = built c →
  resolve cfg g explicit' args' = built c' →
  cc_impl c = cc_impl c' ↔ same_family f g.
Proof.
  intros Hr Hr'.
  apply resolve_built in Hr as (_ & full & _ & Hf).
  apply resolve_built in Hr' as (_ & full' & _ & Hf').
  rewrite (forward_impl _ _ _ _ Hf), (forward_impl _ _ _ _ Hf'). split.
  - apply same_family_impl.
  - unfold same_family.
    intros [-> | [[-> ->] | [[-> ->] | [[-> ->] | [-> ->]]]]]; reflexivity.
Qed.

(** X6: the specialization is selected by the type of the first
    container argument, and a call that is forwarded has no container
    argument of another type, unless it is the result of the
    non-allocating [elementwise_square]. *)
Theorem container_types_agree cfg f explicit args c :
  resolve cfg f explicit args = built c →
  (f ≠ fn_elementwise_square_into →
   ∀ ty (m : Container), Mat ty m ∈ args → ty = cc_type c)
  ∧ ∃ m rest, args = Mat (cc_type c) m :: rest.
Proof.
  intros Hr. apply resolve_built in Hr as (_ & full & Hb & Hf).
  pose proof Hb as Hb'. unfold bind_arguments in Hb'.
  apply complete_app in Hb' as (_ & ds & -> & _).
  apply forward_types in Hf as (Hall & m & rest & Hhead). split.
  - intros Hn ty m' Hin. apply (Hall Hn ty m').
    apply elem_of_app. left. exact Hin.
  - destruct args as [|a args].
    + rewrite bind_arguments_nil in Hb. discriminate.
    + injection Hhead as -> _. eexists _, _. reflexivity.
Qed.

(** X9: in a scalar type whose negation undoes itself, [add] is
    [subtract] with the second coefficient negated: the two functions
    forward the same call. *)
Theorem add_is_subtract_negated (backend : Backend) (Matrix : CType)
  (A B C : Container) (alpha beta : T) :
  (∀ x : T, s_neg (s_neg x) = x) →
  add backend Matrix A B C alpha beta
    = subtract backend Matrix A B C alpha (s_neg beta).
Proof. intros Hinv. rewrite subtract_add, Hinv. reflexivity. Qed.

End DispatchExtras.

(** X11: in a build that defines [HAVE_LINALG_LIB], a call of
    [subtract] has the outcome of the call of [add] with the second
    coefficient negated, whether the backend is given or defaulted:
    rejected alike, or the same kernel result.  With both coefficients
    left out it is [add(A, B, C, 1, -1)]. *)
Theorem subtract_call_agrees_with_add_call {T : Type} {ST : Scalar T}
  {CType : Type} `{EqDecision CType} {Container : Type}
  (cfg : Config T CType Container) (explicit : option Backend)
  (Matrix : CType) (A B C : Container) (alpha beta : T) :
  HAVE_LINALG_LIB ∈ macros cfg →
  call cfg fn_subtract explicit
      [Mat Matrix A; Mat Matrix B; Mat Matrix C; Sc alpha; Sc beta]
    = call cfg fn_add explicit
        [Mat Matrix A; Mat Matrix B; Mat Matrix C; Sc alpha; Sc (s_neg beta)]
  ∧ call cfg fn_subtract explicit [Mat Matrix A; Mat Matrix B; Mat Matrix C]
    = call cfg fn_add explicit
        [Mat Matrix A; Mat Matrix B; Mat Matrix C;
         Sc (s_lit 1); Sc (s_neg (s_lit 1))].
Proof.
  intros Hm. split; [apply subtract_call_is_add_call, Hm|].
  rewrite <- (subtract_call_is_add_call cfg explicit Matrix A B C _ _ Hm).
  unfold call, resolve. rewrite declared_cases.
  rewrite bool_decide_eq_true_2 by assumption.
  rewrite !decide_True by (unfold all_functions; rewrite !elem_of_cons; auto 10).
  reflexivity.
Qed.

(** * The further properties at concrete builds and containers *)

Lemma bind_arguments_appends_defaults_witness :
  bind_arguments fn_convolve
      [Mat SGMatrix_int X0; Mat SGMatrix_int W0; Mat SGMatrix_int Y0; Flag true]
    = Some [Mat SGMatrix_int X0; Mat SGMatrix_int W0; Mat SGMatrix_int Y0;
            Flag true; Flag true; I32 1; I32 1]
  ∧ length [Mat (T:=Z) SGMatrix_int X0; Mat SGMatrix_int W0; Mat SGMatrix_int Y0;
            Flag true; Flag true; I32 1; I32 1] = 7%nat.
Proof.
  split; [reflexivity|].
  apply (bind_arguments_appends_defaults (ST:=Scalar_Z) fn_convolve
           [Mat SGMatrix_int X0; Mat SGMatrix_int W0; Mat SGMatrix_int Y0; Flag true]).
  reflexivity.
Defined.

Lemma omitted_arguments_are_defaults_witness :
  call extended_build fn_matrix_product None
      [Mat SGMatrix_int A0; Mat SGMatrix_int B0; Mat SGMatrix_int C0; Flag true]
    = call extended_build fn_matrix_product None
        [Mat SGMatrix_int A0; Mat SGMatrix_int B0; Mat SGMatrix_int C0;
         Flag true; Flag false; Flag true].
Proof.
  apply (omitted_arguments_are_defaults (ST:=Scalar_Z) extended_build
           fn_matrix_product None
           [Mat SGMatrix_int A0; Mat SGMatrix_int B0; Mat SGMatrix_int C0; Flag true]).
  reflexivity.
Defined.

Lemma arguments_forwarded_unchanged_witness :
  ∃ full,
    bind_arguments fn_convolve
        [Mat SGMatrix_int X0; Mat SGMatrix_int W0; Mat SGMatrix_int Y0]
      = Some full
    ∧ (fn_convolve ≠ fn_subtract →
       cc_args (convolve (T:=Z) reference SGMatrix_int X0 W0 Y0 false true 1 1)
         = full)
    ∧ (fn_convolve = fn_subtract →
       ∃ init beta, full = (init ++ [Sc beta])%list
         ∧ cc_args (convolve (T:=Z) reference SGMatrix_int X0 W0 Y0 false true 1 1)
           = (init ++ [Sc (s_neg beta)])%list).
Proof.
  apply (arguments_forwarded_unchanged (ST:=Scalar_Z) extended_build fn_convolve
           None [Mat SGMatrix_int X0; Mat SGMatrix_int W0; Mat SGMatrix_int Y0]).
  reflexivity.
Defined.

Lemma implementation_shared_witness :
  cc_impl (subtract (T:=Z) reference SGMatrix_int A0 B0 C0 1 1)
    = cc_impl (add (T:=Z) accelerator SGMatrix_int A0 B0 C0 2 3)
  ↔ same_family fn_subtract fn_add.
Proof.
  apply (implementation_shared_iff_same_family (ST:=Scalar_Z) extended_build
           fn_subtract fn_add None (Some accelerator)
           [Mat SGMatrix_int A0; Mat SGMatrix_int B0; Mat SGMatrix_int C0]
           [Mat SGMatrix_int A0; Mat SGMatrix_int B0; Mat SGMatrix_int C0;
            Sc 2%Z; Sc 3%Z]);
    reflexivity.
Defined.

Lemma container_types_agree_witness :
  (fn_scale ≠ fn_elementwise_square_into →
   ∀ ty (m : list (list Z)),
     Mat ty m ∈ [Mat (T:=Z) SGMatrix_int A0; Mat SGMatrix_int C0; Sc 2%Z] →
     ty = SGMatrix_int)
  ∧ ∃ m rest,
      [Mat (T:=Z) SGMatrix_int A0; Mat SGMatrix_int C0; Sc 2%Z]
        = Mat SGMatrix_int m :: rest.
Proof.
  apply (container_types_agree (ST:=Scalar_Z) extended_build fn_scale None
           [Mat SGMatrix_int A0; Mat SGMatrix_int C0; Sc 2%Z]
           (scale reference SGMatrix_int A0 C0 2%Z)).
  reflexivity.
Defined.

Lemma add_is_subtract_negated_witness :
  add reference SGMatrix_int A0 B0 C0 2%Z 3%Z
    = subtract reference SGMatrix_int A0 B0 C0 2%Z (-3)%Z.
Proof.
  apply (add_is_subtract_negated (ST:=Scalar_Z) reference SGMatrix_int
           A0 B0 C0 2%Z 3%Z).
  intros x. simpl. lia.
Defined.

Lemma subtract_call_agrees_with_add_call_witness :
  HAVE_LINALG_LIB ∈ macros reference_only_build
  ∧ call reference_only_build fn_subtract (Some accelerator)
      [Mat SGMatrix_int A0; Mat SGMatrix_int B0; Mat SGMatrix_int C0; Sc 2%Z; Sc 3%Z]
    = call reference_only_build fn_add (Some accelerator)
        [Mat SGMatrix_int A0; Mat SGMatrix_int B0; Mat SGMatrix_int C0;
         Sc 2%Z; Sc (-3)%Z]
  ∧ call reference_only_build fn_subtract (Some accelerator)
      [Mat SGMatrix_int A0; Mat SGMatrix_int B0; Mat SGMatrix_int C0]
    = call reference_only_build fn_add (Some accelerator)
        [Mat SGMatrix_int A0; Mat SGMatrix_int B0; Mat SGMatrix_int C0;
         Sc 1%Z; Sc (-1)%Z].
Proof.
  assert (Hm : HAVE_LINALG_LIB ∈ macros reference_only_build) by left.
  split; [exact Hm|].
  apply (subtract_call_agrees_with_add_call (ST:=Scalar_Z) reference_only_build
           (Some accelerator) SGMatrix_int A0 B0 C0 2%Z 3%Z Hm).
Defined.

(** * The scenarios on containers with their places *)

(** [scale] writes its second argument, [matrix_product] and [convolve]
    their third. *)
Example outputs_written :
  call extended_storage_build fn_scale None
      [Mat SGMatrix_int (located (owned 1) A0);
       Mat SGMatrix_int (located (owned 2) C0); Sc 2%Z]
    = built (Some (located (owned 2) [[2; 4]; [6; 8]]))
  ∧ call extended_storage_build fn_matrix_product None
      [Mat SGMatrix_int (located (owned 1) A0);
       Mat SGMatrix_int (located (owned 2) B0);
       Mat SGMatrix_int (located (owned 3) C0)]
    = built (Some (located (owned 3) [[19; 22]; [43; 50]]))
  ∧ call extended_storage_build fn_convolve None
      [Mat SGMatrix_int (located (owned 1) X0);
       Mat SGMatrix_int (located (owned 2) W0);
       Mat SGMatrix_int (located (owned 3) Y0)]
    = built (Some (located (owned 3) [[2; 3; 0]; [5; 6; 0]])).
Proof. repeat split. Qed.

(** A result of another element type: the square of 70000 does not fit
    [int32_t] and is stored wrapped, while the allocating form returns
    it as it is. *)
Example elementwise_square_converting :
  call extended_storage_build fn_elementwise_square_into None
      [Mat SGMatrix_int (located (owned 1) [[70000]]);
       Mat SGMatrix_other (located (owned 2) [[0]])]
    = built (Some (located (owned 2) [[605032704]]))
  ∧ call extended_storage_build fn_elementwise_square None
      [Mat SGMatrix_int (located (owned 1) [[70000]])]
    = built (Some (located newly_constructed [[4900000000]])).
Proof. split; reflexivity. Qed.
